(** * Bootstrap variants of the automation-framework management service

    The repository holds eight files that each assemble the same service:
    create one web application object, attach the four route groups
    (scenarios, executions, data providers, AI services) and start an HTTP
    listener.  Five files use Flask, three use FastAPI.

    The files are embedded as programs of a small state-and-exception
    monad.  Everything a file asks of code that lives outside it (imports,
    constructors, blueprint registration, the listener) is a [Call]; a
    [World] decides which calls raise, what the configuration holds and
    what the route groups answer.  Theorems quantify over all worlds.

    Three files (providers/api_provider.py, services/__init__.py and
    tests/unit/__init__.py) open with a line that names the file they were
    written for ([src/main.py:] or [src/main.py]).  That line is a label of
    the listing; the embedding of each file starts at its imports. *)

From Stdlib Require Import ZArith.
From stdpp Require Import gmap strings list.

Open Scope Z_scope.
Open Scope string_scope.
Open Scope list_scope.

(** ** Data *)

(** Python values that travel through configuration and keyword arguments. *)
Inductive Value :=
| VStr (s : string)
| VInt (n : Z)
| VBool (b : bool).

#[global] Instance Value_eq_dec : EqDecision Value.
Proof. solve_decision. Defined.

(** The two web frameworks used by the files. *)
Inductive Framework := Flask | FastAPI.

#[global] Instance Framework_eq_dec : EqDecision Framework.
Proof. solve_decision. Defined.

(** The four imported route groups.  The Flask files import them as
    [scenario_routes], ...; two FastAPI files reach the same groups as
    [scenarios.router], ... *)
Inductive RouteGroup :=
| scenario_routes
| execution_routes
| data_provider_routes
| ai_service_routes.

#[global] Instance RouteGroup_eq_dec : EqDecision RouteGroup.
Proof. solve_decision. Defined.

Definition all_groups : list RouteGroup :=
  [scenario_routes; execution_routes; data_provider_routes; ai_service_routes].

(** One attachment of a route group: [register_blueprint(bp, url_prefix=..)]
    or [include_router(r, prefix=.., tags=[..])]. An absent keyword is
    [None] / the empty list. *)
Record Mount := mkMount {
  group : RouteGroup;
  prefix : option string;
  tags : list string
}.

#[global] Instance Mount_eq_dec : EqDecision Mount.
Proof. solve_decision. Defined.

(** The view functions the files define: [health_check] and [index]. *)
Inductive Endpoint := ep_health_check | ep_index.

#[global] Instance Endpoint_eq_dec : EqDecision Endpoint.
Proof. solve_decision. Defined.

(** A rule added with [@app.route(rule)] above a view function; with no
    [methods] keyword Flask serves GET on it. *)
Record Route := mkRoute {
  rule : string;
  endpoint : Endpoint
}.

#[global] Instance Route_eq_dec : EqDecision Route.
Proof. solve_decision. Defined.

(** The application object. *)
Record App := mkApp {
  framework : Framework;
  import_name : string;
  cors : bool;
  app_config : gmap string Value;
  mounts : list Mount;
  routes : list Route
}.

Definition new_app (fw : Framework) (name : string) : App :=
  {| framework := fw; import_name := name; cors := false;
     app_config := ∅; mounts := []; routes := [] |}.

Definition add_mount (m : Mount) (a : App) : App :=
  {| framework := framework a; import_name := import_name a; cors := cors a;
     app_config := app_config a; mounts := mounts a ++ [m];
     routes := routes a |}.

Definition add_route (r : Route) (a : App) : App :=
  {| framework := framework a; import_name := import_name a; cors := cors a;
     app_config := app_config a; mounts := mounts a;
     routes := routes a ++ [r] |}.

Definition set_cors (a : App) : App :=
  {| framework := framework a; import_name := import_name a; cors := true;
     app_config := app_config a; mounts := mounts a; routes := routes a |}.

(** [app.config.update(d)]: the entries of [d] win. *)
Definition config_update (d : gmap string Value) (a : App) : App :=
  {| framework := framework a; import_name := import_name a; cors := cors a;
     app_config := d ∪ app_config a; mounts := mounts a;
     routes := routes a |}.

(** Keyword arguments of the listener start, [app.run(host=, port=, debug=)]
    or [uvicorn.run(app, host=, port=)]; [None] is a keyword not passed. *)
Record RunArgs := mkRunArgs {
  host : option Value;
  port : option Value;
  debug : option Value
}.

(** An exception instance, identified by what [str(e)] prints.  These are
    the instances of [Exception]; [SystemExit] is the separate outcome
    [Exit] below and is not matched by [except Exception]. *)
Definition Exn := string.

(** Everything a file asks of code outside itself. *)
Inductive Call :=
| ImportModule (module : string)
| NewApp (fw : Framework) (name : string)
| EnableCORS
| NewConfig
| GetFlaskConfig
| NewLogger
| NewRunner
| RunnerInitialize
| Attach (m : Mount)
| AddRoute (r : Route)
| Listen (served : App) (args : RunArgs).

Inductive Level := INFO | ERROR.

#[global] Instance Level_eq_dec : EqDecision Level.
Proof. solve_decision. Defined.

Inductive Method := GET | POST | PUT | PATCH | DELETE.

#[global] Instance Method_eq_dec : EqDecision Method.
Proof. solve_decision. Defined.

Record Request := mkRequest {
  method : Method;
  path : string;
  query : string;
  payload : string
}.

(** What a view function may return, and the response made of it. *)
Inductive ViewResult :=
| RDict (d : gmap string Value)
| RStr (s : string).

Inductive Body :=
| Json (d : gmap string Value)
| Text (s : string).

Record Response := mkResponse {
  status : Z;
  body : Body
}.

(** The settings mapping produced by the configuration loader. *)
Abbreviation Config := (gmap string Value).

Record World := mkWorld {
  (** what [Config()] loads *)
  settings : gmap string Value;
  (** what [config.get_flask_config()] returns *)
  flask_settings : gmap string Value;
  (** the exception a call raises, if it raises *)
  raises : Call -> option Exn;
  (** the answer of a route group to a request, given the part of the path
      below its mount point; [None] when the group has no handler for it *)
  group_respond : RouteGroup -> Request -> string -> option Response
}.

(** Process state the files write to: the logger's sink and the calls made
    so far, oldest first. *)
Record State := mkState {
  log : list (Level * string);
  trace : list Call
}.

Definition initial : State := {| log := []; trace := [] |}.

(** ** The monad of module execution *)

Inductive Outcome (A : Type) :=
| Ret (a : A)
| Raise (e : Exn)
| Exit (code : Z).

Arguments Ret {A} a.
Arguments Raise {A} e.
Arguments Exit {A} code.

Definition M (A : Type) : Type := World -> State -> Outcome A * State.

#[global] Instance M_ret : MRet M := fun A a _ s => (Ret a, s).

#[global] Instance M_bind : MBind M := fun A B f m w s =>
  match m w s with
  | (Ret a, s') => f a w s'
  | (Raise e, s') => (Raise e, s')
  | (Exit c, s') => (Exit c, s')
  end.

(** [try: body except Exception as e: handler e]. *)
Definition try_except {A} (body : M A) (handler : Exn -> M A) : M A :=
  fun w s =>
    match body w s with
    | (Raise e, s') => handler e w s'
    | r => r
    end.

(** [sys.exit(code)]. *)
Definition sys_exit {A} (code : Z) : M A := fun _ s => (Exit code, s).

(** A call to outside code: noted in the trace, then it returns or raises
    as the world decides. *)
Definition call (c : Call) : M unit := fun w s =>
  let s' := {| log := log s; trace := trace s ++ [c] |} in
  match raises w c with
  | Some e => (Raise e, s')
  | None => (Ret (), s')
  end.

Definition ask : M World := fun w s => (Ret w, s).

Definition write_log (l : Level) (msg : string) : M unit := fun _ s =>
  (Ret (), {| log := log s ++ [(l, msg)]; trace := trace s |}).

(** ** Framework and library operations used by the files *)

(** [import m] / [from m import ..]. *)
Definition import_ (m : string) : M unit := call (ImportModule m).

(** [Flask(__name__)] and [FastAPI()]. *)
Definition new_Flask (name : string) : M App :=
  call (NewApp Flask name);; mret (new_app Flask name).

Definition new_FastAPI : M App :=
  call (NewApp FastAPI EmptyString);; mret (new_app FastAPI EmptyString).

(** [CORS(app)]. *)
Definition CORS (a : App) : M App :=
  call EnableCORS;; mret (set_cors a).

(** [app.register_blueprint(bp, url_prefix=p)]. *)
Definition register_blueprint (a : App) (bp : RouteGroup)
    (url_prefix : option string) : M App :=
  let m := {| group := bp; prefix := url_prefix; tags := [] |} in
  call (Attach m);; mret (add_mount m a).

(** [app.include_router(r, prefix=p, tags=ts)]. *)
Definition include_router (a : App) (r : RouteGroup)
    (p : option string) (ts : list string) : M App :=
  let m := {| group := r; prefix := p; tags := ts |} in
  call (Attach m);; mret (add_mount m a).

(** [@app.route(rule)] above [def f]. *)
Definition route (a : App) (rl : string) (f : Endpoint) : M App :=
  let r := {| rule := rl; endpoint := f |} in
  call (AddRoute r);; mret (add_route r a).

(** [app.run(..)] and [uvicorn.run(app, ..)]: the call returns when the
    server stops, or raises. *)
Definition app_run (a : App) (args : RunArgs) : M unit :=
  call (Listen a args).

Definition uvicorn_run (a : App) (args : RunArgs) : M unit :=
  call (Listen a args).

(** Modelled from the spec: the configuration loader [Config] (utils.config
    is not among the files) "produces a mapping of runtime settings";
    [config.get(key, default)] reads the mapping and falls back to the
    default for a key it does not supply. *)
Definition new_Config : M Config :=
  call NewConfig;; w ← ask; mret (settings w).

Definition config_get (c : Config) (key : string) (dflt : Value) : Value :=
  default dflt (c !! key).

Definition get_flask_config (c : Config) : M (gmap string Value) :=
  call GetFlaskConfig;; w ← ask; mret (flask_settings w).

(** Modelled from the spec: the [Logger] (core.logger is not among the
    files) is a "process-wide diagnostic sink with info/error severity
    methods"; each method writes one line of its level to the sink. *)
Inductive Logger := the_logger.

Definition new_Logger : M Logger :=
  call NewLogger;; mret the_logger.

Definition logger_info (_ : Logger) (msg : string) : M unit :=
  write_log INFO msg.

Definition logger_error (_ : Logger) (msg : string) : M unit :=
  write_log ERROR msg.

(** [Runner()] and [runner.initialize()] (core.runner is not among the
    files; only whether the calls return matters here). *)
Inductive Runner := the_runner.

Definition new_Runner : M Runner :=
  call NewRunner;; mret the_runner.

Definition runner_initialize (_ : Runner) : M unit :=
  call RunnerInitialize.

(** ** Serving a request *)

Definition View := Request -> M ViewResult.

(** Flask's conversion of a view's return value: a dict becomes a JSON body,
    a string a text body, both with status 200. *)
Definition make_response (r : ViewResult) : Response :=
  match r with
  | RDict d => {| status := 200; body := Json d |}
  | RStr s => {| status := 200; body := Text s |}
  end.

Definition not_found : Response :=
  {| status := 404; body := Text "Not Found" |}.

(** [strip_prefix p s] is [Some r] exactly when [s = p ++ r]. *)
Fixpoint strip_prefix (p s : string) : option string :=
  match p with
  | EmptyString => Some s
  | String a p' =>
      match s with
      | EmptyString => None
      | String b s' => if decide (a = b) then strip_prefix p' s' else None
      end
  end.

(** Modelled from the spec: a route group (the api.routes modules are not
    among the files) is "a named collection of HTTP endpoint handlers
    mounted under a common path prefix": a mounted group sees only the
    paths below its prefix, and the world gives its answer there. *)
Definition mount_respond (w : World) (req : Request) (m : Mount)
    : option Response :=
  match strip_prefix (default EmptyString (prefix m)) (path req) with
  | Some rest => group_respond w (group m) req rest
  | None => None
  end.

Fixpoint first_response (w : World) (req : Request) (ms : list Mount)
    : option Response :=
  match ms with
  | [] => None
  | m :: ms' =>
      match mount_respond w req m with
      | Some r => Some r
      | None => first_response w req ms'
      end
  end.

Definition find_route (req : Request) (rs : list Route) : option Route :=
  List.find (fun r => bool_decide (rule r = path req)) rs.

Definition method_not_allowed : Response :=
  {| status := 405; body := Text "Method Not Allowed" |}.

(** ** The files *)

(** src/main.py *)
Module main.

(** [@app.route('/health') def health_check()] *)
Definition health_check : View := fun _ =>
  mret (RDict {[ "status" := VStr "healthy";
                 "service" := VStr "automation-framework-management" ]}).

Definition start_management_service (app : App) (config : Config)
    (logger : Logger) : M unit :=
  try_except
    (logger_info logger "Starting automation framework management service...";;
     app_run app
       {| host := Some (config_get config "server.host" (VStr "0.0.0.0"));
          port := Some (config_get config "server.port" (VInt 8000));
          debug := Some (config_get config "server.debug" (VBool false)) |};;
     logger_info logger "Management service started successfully.")
    (fun e =>
       logger_error logger ("Failed to start management service: " +:+ e);;
       sys_exit 1).

Definition script (name : string) : M unit :=
  import_ "sys";;
  import_ "flask";;
  import_ "flask_cors";;
  import_ "api.routes.scenarios";;
  import_ "api.routes.executions";;
  import_ "api.routes.data_providers";;
  import_ "api.routes.ai_services";;
  import_ "core.runner";;
  import_ "core.logger";;
  import_ "utils.config";;
  app ← new_Flask name;
  app ← CORS app;
  config ← new_Config;
  fc ← get_flask_config config;
  let app := config_update fc app in
  logger ← new_Logger;
  app ← register_blueprint app scenario_routes (Some "/api/v1/scenarios");
  app ← register_blueprint app execution_routes (Some "/api/v1/executions");
  app ← register_blueprint app data_provider_routes
          (Some "/api/v1/data-providers");
  app ← register_blueprint app ai_service_routes (Some "/api/v1/ai");
  app ← route app "/health" ep_health_check;
  if decide (name = "__main__")
  then start_management_service app config logger
  else mret ().

End main.

(** src/types/common_types.py *)
Module common_types.

(** [@app.route('/') def index()] *)
Definition index : View := fun _ =>
  mret (RStr "Welcome to the Management Service!").

Definition script (name : string) : M unit :=
  import_ "api.routes.scenarios";;
  import_ "api.routes.executions";;
  import_ "api.routes.data_providers";;
  import_ "api.routes.ai_services";;
  import_ "core.runner";;
  import_ "flask";;
  app ← new_Flask name;
  app ← register_blueprint app scenario_routes None;
  app ← register_blueprint app execution_routes None;
  app ← register_blueprint app data_provider_routes None;
  app ← register_blueprint app ai_service_routes None;
  app ← route app "/" ep_index;
  if decide (name = "__main__")
  then
    runner ← new_Runner;
    runner_initialize runner;;
    app_run app {| host := None; port := None; debug := Some (VBool true) |}
  else mret ().

End common_types.

(** src/providers/api_provider.py *)
Module api_provider.

Definition create_app (name : string) : M App :=
  app ← new_Flask name;
  app ← register_blueprint app scenario_routes None;
  app ← register_blueprint app execution_routes None;
  app ← register_blueprint app data_provider_routes None;
  app ← register_blueprint app ai_service_routes None;
  mret app.

Definition script (name : string) : M unit :=
  import_ "sys";;
  import_ "api.routes.scenarios";;
  import_ "api.routes.executions";;
  import_ "api.routes.data_providers";;
  import_ "api.routes.ai_services";;
  import_ "flask";;
  if decide (name = "__main__")
  then
    app ← create_app name;
    app_run app {| host := None; port := None; debug := Some (VBool true) |}
  else mret ().

End api_provider.

(** src/services/__init__.py *)
Module services.

Definition create_app (name : string) : M App :=
  app ← new_Flask name;
  app ← register_blueprint app scenario_routes None;
  app ← register_blueprint app execution_routes None;
  app ← register_blueprint app data_provider_routes None;
  app ← register_blueprint app ai_service_routes None;
  mret app.

Definition script (name : string) : M unit :=
  import_ "sys";;
  import_ "api.routes.scenarios";;
  import_ "api.routes.executions";;
  import_ "api.routes.data_providers";;
  import_ "api.routes.ai_services";;
  import_ "core.runner";;
  import_ "core.logger";;
  import_ "flask";;
  if decide (name = "__main__")
  then
    app ← create_app name;
    logger ← new_Logger;
    logger_info logger "Starting Management Service...";;
    try_except
      (app_run app
         {| host := None; port := None; debug := Some (VBool true) |})
      (fun e =>
         logger_error logger ("Error starting the service: " +:+ e);;
         sys_exit 1)
  else mret ().

End services.

(** src/api/middleware/auth.py *)
Module auth.

Definition script (name : string) : M unit :=
  import_ "fastapi";;
  import_ "api.routes";;
  app ← new_FastAPI;
  app ← include_router app scenario_routes (Some "/scenarios") ["scenarios"];
  app ← include_router app execution_routes (Some "/executions")
          ["executions"];
  app ← include_router app data_provider_routes (Some "/data-providers")
          ["data providers"];
  app ← include_router app ai_service_routes (Some "/ai-services")
          ["AI services"];
  if decide (name = "__main__")
  then
    import_ "uvicorn";;
    uvicorn_run app
      {| host := Some (VStr "0.0.0.0"); port := Some (VInt 8000);
         debug := None |}
  else mret ().

End auth.

(** scripts/setup.py *)
Module setup.

Definition script (name : string) : M unit :=
  import_ "fastapi";;
  import_ "api.routes";;
  app ← new_FastAPI;
  app ← include_router app scenario_routes None [];
  app ← include_router app execution_routes None [];
  app ← include_router app data_provider_routes None [];
  app ← include_router app ai_service_routes None [];
  if decide (name = "__main__")
  then
    import_ "uvicorn";;
    uvicorn_run app
      {| host := Some (VStr "0.0.0.0"); port := Some (VInt 8000);
         debug := None |}
  else mret ().

End setup.

(** tests/unit/test_parser.py *)
Module test_parser.

Definition script (name : string) : M unit :=
  import_ "api.routes.scenarios";;
  import_ "api.routes.executions";;
  import_ "api.routes.data_providers";;
  import_ "api.routes.ai_services";;
  import_ "fastapi";;
  app ← new_FastAPI;
  app ← include_router app scenario_routes None [];
  app ← include_router app execution_routes None [];
  app ← include_router app data_provider_routes None [];
  app ← include_router app ai_service_routes None [];
  if decide (name = "__main__")
  then
    import_ "uvicorn";;
    uvicorn_run app
      {| host := Some (VStr "0.0.0.0"); port := Some (VInt 8000);
         debug := None |}
  else mret ().

End test_parser.

(** tests/unit/__init__.py *)
Module tests_unit.

Definition start_management_service (app : App) (logger : Logger)
    : M unit :=
  try_except
    (app_run app {| host := None; port := None; debug := Some (VBool true) |})
    (fun e =>
       logger_error logger ("Failed to start the management service: " +:+ e);;
       sys_exit 1).

Definition script (name : string) : M unit :=
  import_ "sys";;
  import_ "api.routes.scenarios";;
  import_ "api.routes.executions";;
  import_ "api.routes.data_providers";;
  import_ "api.routes.ai_services";;
  import_ "core.runner";;
  import_ "core.logger";;
  import_ "flask";;
  app ← new_Flask name;
  logger ← new_Logger;
  app ← register_blueprint app scenario_routes None;
  app ← register_blueprint app execution_routes None;
  app ← register_blueprint app data_provider_routes None;
  app ← register_blueprint app ai_service_routes None;
  if decide (name = "__main__")
  then start_management_service app logger
  else mret ().

End tests_unit.

(** ** The eight variants together *)

Inductive Variant :=
| main_py
| common_types_py
| api_provider_py
| services_py
| auth_py
| setup_py
| test_parser_py
| tests_unit_py.

#[global] Instance Variant_eq_dec : EqDecision Variant.
Proof. solve_decision. Defined.

Definition script (v : Variant) : string -> M unit :=
  match v with
  | main_py => main.script
  | common_types_py => common_types.script
  | api_provider_py => api_provider.script
  | services_py => services.script
  | auth_py => auth.script
  | setup_py => setup.script
  | test_parser_py => test_parser.script
  | tests_unit_py => tests_unit.script
  end.

Definition framework_of (v : Variant) : Framework :=
  match v with
  | auth_py | setup_py | test_parser_py => FastAPI
  | _ => Flask
  end.

(** Running a file as a program ([python file.py]) from a fresh process. *)
Definition run (v : Variant) (w : World) : Outcome unit * State :=
  script v "__main__" w initial.

(** The calls a process makes when the module is loaded under [name]. *)
Definition calls (v : Variant) (name : string) (w : World) : list Call :=
  trace (snd (script v name w initial)).

(** ** Dispatch of a request by a served application *)

Definition view_of (ep : Endpoint) : View :=
  match ep with
  | ep_health_check => main.health_check
  | ep_index => common_types.index
  end.

(** Rules are tried in the order they were added to the application: the
    mounted groups, then the application's own routes. *)
Definition handle (a : App) (req : Request) : M Response :=
  w ← ask;
  match first_response w req (mounts a) with
  | Some r => mret r
  | None =>
      match find_route req (routes a) with
      | Some r =>
          if decide (method req = GET)
          then res ← view_of (endpoint r) req; mret (make_response res)
          else mret method_not_allowed
      | None => mret not_found
      end
  end.

(** ** Observations on a run *)

Definition error_lines (s : State) : list string :=
  omap (fun l => if decide (l.1 = ERROR) then Some l.2 else None) (log s).

Definition listens (t : list Call) : list (App * RunArgs) :=
  omap (fun c => match c with Listen a r => Some (a, r) | _ => None end) t.

Definition attached (t : list Call) : list Mount :=
  omap (fun c => match c with Attach m => Some m | _ => None end) t.

Definition added_routes (t : list Call) : list Route :=
  omap (fun c => match c with AddRoute r => Some r | _ => None end) t.

Definition created_apps (t : list Call) : list Framework :=
  omap (fun c => match c with NewApp fw _ => Some fw | _ => None end) t.

(** The same world with every call returning. *)
Definition quiet (w : World) : World :=
  {| settings := settings w; flask_settings := flask_settings w;
     raises := fun _ => None; group_respond := group_respond w |}.

(** A world without configuration in which exactly the calls selected by
    [p] raise [e]. *)
Definition failing (p : Call -> bool) (e : Exn) : World :=
  {| settings := ∅; flask_settings := ∅;
     raises := fun c => if p c then Some e else None;
     group_respond := fun _ _ _ => None |}.

Definition is_listen (c : Call) : bool :=
  match c with Listen _ _ => true | _ => false end.

Definition is_new_config (c : Call) : bool :=
  match c with NewConfig => true | _ => false end.

(** The port is taken: the listener start raises. *)
Definition port_in_use : World := failing is_listen "Address already in use".


(** The text before [{e}] in the routine's error line. *)
Definition failure_text (v : Variant) : string :=
  match v with
  | main_py => "Failed to start management service: "
  | tests_unit_py => "Failed to start the management service: "
  | services_py => "Error starting the service: "
  | _ => EmptyString
  end.

(** The variants whose listener start names a host and a port. *)
Definition names_bind_address (v : Variant) : bool :=
  match v with
  | main_py | auth_py | setup_py | test_parser_py => true
  | _ => false
  end.


(** The variants whose listener start sits in a [try] with an
    [except Exception] handler. *)
Definition has_handler (v : Variant) : bool :=
  match v with
  | main_py | tests_unit_py | services_py => true
  | _ => false
  end.

(** The run made the calls [t] and its last call [c] raised [e]. *)
Definition stopped_at (w : World) (t : list Call) (c : Call) (e : Exn)
    : Prop :=
  raises w c = Some e ∧
  ∃ pre, t = pre ++ [c] ∧ Forall (fun c' => raises w c' = None) pre.

(** A world without configuration in which every call returns. *)
Definition calm : World := failing (fun _ => false) EmptyString.

(** The configuration loader cannot read its file: [Config()] raises. *)
Definition config_missing : World :=
  failing is_new_config "config file not found".

(** The application object src/main.py has built when it reaches the
    listener start; [fc] is what [get_flask_config()] returned. *)
Definition main_app (fc : gmap string Value) : App :=
  {| framework := Flask; import_name := "__main__"; cors := true;
     app_config := fc ∪ ∅;
     mounts :=
       [ {| group := scenario_routes; prefix := Some "/api/v1/scenarios";
            tags := [] |};
         {| group := execution_routes; prefix := Some "/api/v1/executions";
            tags := [] |};
         {| group := data_provider_routes;
            prefix := Some "/api/v1/data-providers"; tags := [] |};
         {| group := ai_service_routes; prefix := Some "/api/v1/ai";
            tags := [] |} ];
     routes := [ {| rule := "/health"; endpoint := ep_health_check |} ] |}.

(** The application object the unprefixed Flask variants have built when
    they reach the listener start. *)
Definition plain_app (rs : list Route) : App :=
  {| framework := Flask; import_name := "__main__"; cors := false;
     app_config := ∅;
     mounts :=
       [ {| group := scenario_routes; prefix := None; tags := [] |};
         {| group := execution_routes; prefix := None; tags := [] |};
         {| group := data_provider_routes; prefix := None; tags := [] |};
         {| group := ai_service_routes; prefix := None; tags := [] |} ];
     routes := rs |}.

(** The keyword arguments of [app.run(debug=True)]. *)
Definition debug_only : RunArgs :=
  {| host := None; port := None; debug := Some (VBool true) |}.

(** The keyword arguments src/main.py passes when the configuration holds
    none of the three server settings. *)
Definition default_args : RunArgs :=
  {| host := Some (VStr "0.0.0.0"); port := Some (VInt 8000);
     debug := Some (VBool false) |}.

(** [covers gs]: each of the four route groups occurs in [gs]. *)
Definition covers (gs : list RouteGroup) : bool :=
  forallb (fun g => bool_decide (g ∈ gs)) all_groups.

(** A scan of a trace from its start: [seen] are the groups attached and
    [apps] the application objects created so far; every listener start
    must find the four groups attached, carried by the application it is
    given, and one application created. *)
Fixpoint listens_follow (seen : list RouteGroup) (apps : nat)
    (t : list Call) : bool :=
  match t with
  | [] => true
  | Attach m :: t' => listens_follow (group m :: seen) apps t'
  | NewApp _ _ :: t' => listens_follow seen (S apps) t'
  | Listen a _ :: t' =>
      covers seen && covers (group <$> mounts a) && bool_decide (apps = 1%nat)
      && listens_follow seen apps t'
  | _ :: t' => listens_follow seen apps t'
  end.

(** The import of module [m]. *)
Definition is_import_of (m : string) (c : Call) : bool :=
  match c with
  | ImportModule m' => bool_decide (m' = m)
  | _ => false
  end.

(** A dependency is not installed: importing module [m] raises. *)
Definition module_missing (m : string) : World :=
  failing (is_import_of m) ("No module named " +:+ m).



(** A configuration that supplies host and port (the port as a string),
    in a world where nothing raises. *)
Definition configured : World :=
  {| settings := {[ "server.host" := VStr "127.0.0.1";
                    "server.port" := VStr "5000" ]};
     flask_settings := ∅; raises := fun _ => None;
     group_respond := fun _ _ _ => None |}.

(** ** Symbolic execution of the files *)

Ltac unfold_ops :=
  unfold calls, run, script,
    main.script, common_types.script, api_provider.script, services.script,
    auth.script, setup.script, test_parser.script, tests_unit.script,
    main.start_management_service, tests_unit.start_management_service,
    api_provider.create_app, services.create_app,
    import_, new_Flask, new_FastAPI, CORS, register_blueprint, include_router,
    route, app_run, uvicorn_run, new_Config, get_flask_config, new_Logger,
    logger_info, logger_error, new_Runner, runner_initialize,
    try_except, sys_exit, write_log, ask, call,
    mbind, M_bind, mret, M_ret in *.

(** One call of the program text: the world lets it return or raise.  Only
    the first pending call is a closed term, so the calls are taken in
    program order. *)
Ltac step :=
  match goal with
  | |- context [match raises ?w ?c with _ => _ end] =>
      destruct (raises w c) eqn:?; cbn
  end.

Ltac main_guard name :=
  destruct (decide (name = "__main__")) as [->|?]; cbn.

(** Whatever raises, the calls made are an initial segment of the calls of
    the run in which nothing raises. *)
Lemma calls_prefix (v : Variant) (name : string) (w : World) :
  calls v name w `prefix_of` calls v name (quiet w).
Proof.
  destruct v; unfold_ops; cbn; main_guard name;
    repeat (step; [eexists; reflexivity|]);
    first [by eexists [] | eexists; reflexivity].
Qed.

Ltac step_in H :=
  match type of H with
  | context [match raises ?w ?c with _ => _ end] =>
      destruct (raises w c) eqn:?; cbn in H
  end.

Ltac all_returned := repeat constructor; assumption.

Ltac leaf H :=
  injection H as <- <-; cbn;
  first
    [ left; split; [all_returned | done]
    | right; eexists _, _; split;
      [ split;
        [ eassumption
        | match goal with
          | |- ∃ pre, ?t = pre ++ [_] ∧ _ => exists (removelast t)
          end; cbn; split; [reflexivity | all_returned] ]
      | cbn; done ] ].

(** How a run ends.  Either every call returned and the file ran to its
    end, or the run stopped at the first call that raised: through the
    handler (one error line, exit status 1) when that call is the listener
    start of a variant that wraps it, with the exception escaping and no
    error line otherwise. *)
Lemma run_cases (v : Variant) (name : string) (w : World) :
  let r := script v name w initial in
  (Forall (fun c => raises w c = None) (trace r.2) ∧
     r.1 = Ret () ∧ error_lines r.2 = [])
  ∨ ∃ c e, stopped_at w (trace r.2) c e ∧
      if is_listen c && has_handler v
      then r.1 = Exit 1 ∧ error_lines r.2 = [failure_text v +:+ e]
      else r.1 = Raise e ∧ error_lines r.2 = [].
Proof.
  cbv zeta. destruct (script v name w initial) as [o s] eqn:Hr.
  destruct v; unfold_ops; cbn in Hr; revert Hr; main_guard name; intros Hr.
  all: repeat (step_in Hr; [leaf Hr|]).
  all: leaf Hr.
Qed.

(** The call that raised is the last one made, and the only one. *)
Lemma stopped_at_unique (w : World) (t : list Call) (c c' : Call)
    (e e' : Exn) :
  stopped_at w t c e → c' ∈ t → raises w c' = Some e' → c' = c ∧ e' = e.
Proof.
  intros [He (pre & -> & Hpre)] Hin He'.
  apply elem_of_app in Hin as [Hin | Hin].
  - rewrite Forall_forall in Hpre. apply Hpre in Hin. congruence.
  - apply list_elem_of_singleton in Hin as ->. split; congruence.
Qed.

(** What a run in some world shows was also shown by the run in which
    nothing raises. *)
Lemma seen_in_quiet {B} (f : Call → option B) (v : Variant) (name : string)
    (w : World) (x : B) :
  x ∈ omap f (calls v name w) → x ∈ omap f (calls v name (quiet w)).
Proof.
  destruct (calls_prefix v name w) as [k ->].
  rewrite omap_app, elem_of_app. tauto.
Qed.

Lemma before_in_quiet (v : Variant) (name : string) (w : World) (i : nat)
    (c : Call) :
  calls v name w !! i = Some c →
  calls v name (quiet w) !! i = Some c ∧
  take i (calls v name w) = take i (calls v name (quiet w)).
Proof.
  destruct (calls_prefix v name w) as [k ->]. intros Hi.
  pose proof (lookup_lt_Some _ _ _ Hi) as Hlt. split.
  - by rewrite lookup_app_l.
  - rewrite take_app_le by lia. done.
Qed.

(** ** Reading the trace *)

Lemma elem_of_listens (t : list Call) (a : App) (args : RunArgs) :
  (a, args) ∈ listens t ↔ Listen a args ∈ t.
Proof.
  unfold listens. rewrite list_elem_of_omap. split.
  - intros (c & Hc & Hf). destruct c; try discriminate.
    by injection Hf as <- <-.
  - intros Hc. by exists (Listen a args).
Qed.

Lemma elem_of_attached (t : list Call) (m : Mount) :
  m ∈ attached t ↔ Attach m ∈ t.
Proof.
  unfold attached. rewrite list_elem_of_omap. split.
  - intros (c & Hc & Hf). destruct c; try discriminate.
    by injection Hf as <-.
  - intros Hc. by exists (Attach m).
Qed.

(** ** The application served by src/main.py *)

Lemma served_by_main (w : World) (name : string) (a : App) (args : RunArgs) :
  (a, args) ∈ listens (calls main_py name w) →
  name = "__main__" ∧ a = main_app (flask_settings w) ∧
  args
  = {| host := Some (config_get (settings w) "server.host" (VStr "0.0.0.0"));
       port := Some (config_get (settings w) "server.port" (VInt 8000));
       debug :=
         Some (config_get (settings w) "server.debug" (VBool false)) |}.
Proof.
  intros H. apply seen_in_quiet in H. revert H.
  unfold_ops; cbn; main_guard name; intros H.
  - apply list_elem_of_singleton in H. by injection H as -> ->.
  - by apply elem_of_nil in H.
Qed.

(** C1. Every application that src/main.py hands to the listener answers
    every request GET /health, whatever its query or payload and whatever
    the route groups do, with status 200 and the JSON object
    {"status": "healthy", "service": "automation-framework-management"};
    serving it leaves the process state as it was. *)
Theorem health_check_response (w : World) (name : string) (a : App)
    (args : RunArgs) (w' : World) (s : State) (q p : string) :
  (a, args) ∈ listens (calls main_py name w) →
  handle a {| method := GET; path := "/health"; query := q; payload := p |}
    w' s
  = (Ret {| status := 200;
            body := Json {[ "status" := VStr "healthy";
                            "service" :=
                              VStr "automation-framework-management" ]} |},
     s).
Proof.
  intros H. apply served_by_main in H as (_ & -> & _). reflexivity.
Qed.

Lemma health_check_response_witness :
  handle (main_app ∅)
    {| method := GET; path := "/health"; query := "verbose=1";
       payload := "ping" |}
    calm initial
  = (Ret {| status := 200;
            body := Json {[ "status" := VStr "healthy";
                            "service" :=
                              VStr "automation-framework-management" ]} |},
     initial).
Proof.
  apply (health_check_response calm "__main__" (main_app ∅) default_args).
  vm_compute. left.
Defined.



(** The same holds for the handler that src/services/__init__.py puts
    around the listener start in its main block. *)
Lemma services_failure_logged_exit (w : World) (a : App) (args : RunArgs)
    (e : Exn) :
  (a, args) ∈ listens (calls services_py "__main__" w) →
  raises w (Listen a args) = Some e →
  (run services_py w).1 = Exit 1 ∧
  error_lines (run services_py w).2 = ["Error starting the service: " +:+ e].
Proof.
  intros Hin He.
  apply elem_of_listens in Hin as Hc.
  unfold run. unfold calls in Hc.
  destruct (run_cases services_py "__main__" w)
    as [(Hall & _) | (c & e' & Hstop & Hend)].
  - rewrite Forall_forall in Hall. apply Hall in Hc. congruence.
  - by destruct (stopped_at_unique _ _ _ _ _ _ Hstop Hc He) as [<- <-].
Qed.

(** ** The bind address *)

(** C3, as stated for every variant, fails: src/types/common_types.py run
    without any configured host or port starts its listener with
    [app.run(debug=True)], which names neither host 0.0.0.0 nor port
    8000. *)
Lemma default_bind_every_variant_fails :
  ¬ (∀ (v : Variant) (w : World) (a : App) (args : RunArgs),
       settings w !! "server.host" = None →
       settings w !! "server.port" = None →
       (a, args) ∈ listens (calls v "__main__" w) →
       host args = Some (VStr "0.0.0.0") ∧ port args = Some (VInt 8000)).
Proof.
  intros H.
  destruct (H common_types_py calm
              (plain_app [ {| rule := "/"; endpoint := ep_index |} ])
              debug_only) as [Hhost _].
  - reflexivity.
  - reflexivity.
  - vm_compute. left.
  - discriminate Hhost.
Qed.

(** C3, amended. In src/main.py and in the three FastAPI variants, when the
    configuration supplies no host and no port, the listener is started on
    host 0.0.0.0 and port 8000. *)
Theorem default_bind (v : Variant) (w : World) (a : App) (args : RunArgs) :
  names_bind_address v = true →
  settings w !! "server.host" = None →
  settings w !! "server.port" = None →
  (a, args) ∈ listens (calls v "__main__" w) →
  host args = Some (VStr "0.0.0.0") ∧ port args = Some (VInt 8000).
Proof.
  intros Hv Hhost Hport Hin. apply seen_in_quiet in Hin. revert Hin.
  destruct v; try discriminate Hv; unfold_ops; cbn; intros Hin;
    apply list_elem_of_singleton in Hin; injection Hin as _ ->; cbn.
  - unfold config_get. by rewrite Hhost, Hport.
  - done.
  - done.
  - done.
Qed.

Lemma default_bind_witness :
  host default_args = Some (VStr "0.0.0.0") ∧
  port default_args = Some (VInt 8000).
Proof.
  apply (default_bind main_py calm (main_app ∅) default_args).
  - reflexivity.
  - reflexivity.
  - reflexivity.
  - vm_compute. left.
Defined.


(** ** Order of attachment and listener start *)

Lemma covers_spec (gs : list RouteGroup) :
  covers gs = true → ∀ g : RouteGroup, g ∈ gs.
Proof.
  unfold covers, all_groups. cbn. rewrite !andb_true_iff.
  intros (H1 & H2 & H3 & H4 & _) g.
  destruct g; eapply bool_decide_eq_true_1; eassumption.
Qed.

Lemma listens_follow_sound (t : list Call) :
  ∀ (seen : list RouteGroup) (apps i : nat) (a : App) (args : RunArgs),
    listens_follow seen apps t = true →
    t !! i = Some (Listen a args) →
    (∀ g : RouteGroup, g ∈ seen ++ (group <$> attached (take i t))) ∧
    (∀ g : RouteGroup, g ∈ group <$> mounts a) ∧
    (apps + length (created_apps (take i t)) = 1)%nat.
Proof.
  induction t as [|c t IH]; intros seen apps i a args Hscan Hi.
  - discriminate Hi.
  - destruct i as [|i].
    + injection Hi as ->.
      change (covers seen && covers (group <$> mounts a)
              && bool_decide (apps = 1%nat) && listens_follow seen apps t
              = true) in Hscan.
      rewrite !andb_true_iff in Hscan.
      destruct Hscan as (((Hseen & Hcarried) & Happs) & _).
      apply bool_decide_eq_true_1 in Happs.
      repeat split.
      * intros g. rewrite take_0. cbn. rewrite app_nil_r.
        by apply covers_spec.
      * by apply covers_spec.
      * rewrite take_0. cbn. lia.
    + cbn in Hi. rewrite firstn_cons.
      destruct c; cbn [listens_follow] in Hscan;
        try (by apply (IH seen apps i a args)).
      * (* NewApp *)
        destruct (IH seen (S apps) i a args Hscan Hi) as (H1 & H2 & H3).
        repeat split; [done | done |].
        unfold created_apps in *. cbn. lia.
      * (* Attach *)
        destruct (IH (group m :: seen) apps i a args Hscan Hi)
          as (H1 & H2 & H3).
        repeat split; [| done | done].
        intros g. specialize (H1 g). unfold attached in *. cbn.
        rewrite elem_of_app, elem_of_cons.
        apply elem_of_app in H1 as [H1|H1]; [|tauto].
        apply elem_of_cons in H1 as [->|H1]; tauto.
      * (* Listen *)
        rewrite !andb_true_iff in Hscan. destruct Hscan as [_ Hscan].
        by apply (IH seen apps i a args).
Qed.

Lemma quiet_listens_follow (v : Variant) (name : string) (w : World) :
  listens_follow [] 0 (calls v name (quiet w)) = true.
Proof.
  destruct v; unfold_ops; cbn; main_guard name; reflexivity.
Qed.

(** C4. In every variant and every world, whenever the listener start is
    called, the calls made before it include the attachment of each of the
    four route groups and the creation of exactly one application object,
    and the application handed to the listener carries the four groups. *)
Theorem listener_after_attachments (v : Variant) (name : string) (w : World)
    (i : nat) (a : App) (args : RunArgs) :
  calls v name w !! i = Some (Listen a args) →
  let before := take i (calls v name w) in
  (∀ g : RouteGroup, g ∈ group <$> attached before) ∧
  (∀ g : RouteGroup, g ∈ group <$> mounts a) ∧
  length (created_apps before) = 1%nat.
Proof.
  intros Hi. cbv zeta.
  apply before_in_quiet in Hi as [Hi ->].
  exact (listens_follow_sound _ [] 0%nat i a args
           (quiet_listens_follow v name w) Hi).
Qed.

Lemma listener_after_attachments_witness :
  let before := take 20 (calls main_py "__main__" calm) in
  (∀ g : RouteGroup, g ∈ group <$> attached before) ∧
  (∀ g : RouteGroup, g ∈ group <$> mounts (main_app ∅)) ∧
  length (created_apps before) = 1%nat.
Proof.
  apply (listener_after_attachments main_py "__main__" calm 20 (main_app ∅)
           default_args).
  reflexivity.
Defined.


(** ** Routes and mount points *)

Lemma elem_of_added_routes (t : list Call) (r : Route) :
  r ∈ added_routes t ↔ AddRoute r ∈ t.
Proof.
  unfold added_routes. rewrite list_elem_of_omap. split.
  - intros (c & Hc & Hf). destruct c; try discriminate.
    by injection Hf as <-.
  - intros Hc. by exists (AddRoute r).
Qed.

(** C5. A route with rule / is added by src/types/common_types.py and by
    no other variant, in any world; its view function is [index], which
    returns the text "Welcome to the Management Service!" for every request
    and leaves the process state as it was; and common_types.py does add
    it, as its only route, when nothing raises. *)
Theorem root_route_only_common_types (v : Variant) (name : string)
    (w : World) (r : Route) :
  r ∈ added_routes (calls v name w) →
  rule r = "/" →
  v = common_types_py ∧
  (∀ (req : Request) (w' : World) (s : State),
     view_of (endpoint r) req w' s
     = (Ret (RStr "Welcome to the Management Service!"), s)) ∧
  (∀ (name' : string) (w' : World),
     added_routes (calls common_types_py name' (quiet w')) = [r]).
Proof.
  intros Hin Hrule. apply seen_in_quiet in Hin. revert Hin.
  destruct v; unfold_ops; cbn; main_guard name; intros Hin;
    try (by apply elem_of_nil in Hin);
    apply list_elem_of_singleton in Hin; subst r; try discriminate Hrule.
  all: split; [done|]; split; [done|].
  all: intros name' w'; unfold_ops; cbn; by main_guard name'.
Qed.

Lemma root_route_only_common_types_witness :
  common_types_py = common_types_py ∧
  (∀ (req : Request) (w' : World) (s : State),
     view_of ep_index req w' s
     = (Ret (RStr "Welcome to the Management Service!"), s)) ∧
  (∀ (name' : string) (w' : World),
     added_routes (calls common_types_py name' (quiet w'))
     = [ {| rule := "/"; endpoint := ep_index |} ]).
Proof.
  apply (root_route_only_common_types common_types_py "__main__" calm
           {| rule := "/"; endpoint := ep_index |}).
  - vm_compute. left.
  - reflexivity.
Defined.



(** C9. In every world, each route group attached by src/main.py is
    mounted at /api/v1/scenarios, /api/v1/executions,
    /api/v1/data-providers or, for the AI services, /api/v1/ai, which is
    not /api/v1/ai-services; with nothing raising these are the four
    attachments, in this order. *)
Theorem main_ai_prefix (name : string) (w : World) (m : Mount) :
  m ∈ attached (calls main_py name w) →
  prefix m
  = Some match group m with
         | scenario_routes => "/api/v1/scenarios"
         | execution_routes => "/api/v1/executions"
         | data_provider_routes => "/api/v1/data-providers"
         | ai_service_routes => "/api/v1/ai"
         end ∧
  (group m = ai_service_routes → prefix m ≠ Some "/api/v1/ai-services") ∧
  (fun m' => (group m', prefix m')) <$> attached (calls main_py name (quiet w))
  = [ (scenario_routes, Some "/api/v1/scenarios");
      (execution_routes, Some "/api/v1/executions");
      (data_provider_routes, Some "/api/v1/data-providers");
      (ai_service_routes, Some "/api/v1/ai") ].
Proof.
  intros Hin. apply seen_in_quiet in Hin. revert Hin.
  unfold_ops; cbn; main_guard name; intros Hin;
    repeat (apply elem_of_cons in Hin as [->|Hin]);
    try (by apply elem_of_nil in Hin); cbn; done.
Qed.

Lemma main_ai_prefix_witness :
  let m := {| group := ai_service_routes; prefix := Some "/api/v1/ai";
              tags := [] |} in
  prefix m = Some "/api/v1/ai" ∧
  (group m = ai_service_routes → prefix m ≠ Some "/api/v1/ai-services") ∧
  (fun m' => (group m', prefix m'))
    <$> attached (calls main_py "__main__" (quiet calm))
  = [ (scenario_routes, Some "/api/v1/scenarios");
      (execution_routes, Some "/api/v1/executions");
      (data_provider_routes, Some "/api/v1/data-providers");
      (ai_service_routes, Some "/api/v1/ai") ].
Proof.
  apply (main_ai_prefix "__main__" calm
           {| group := ai_service_routes; prefix := Some "/api/v1/ai";
              tags := [] |}).
  vm_compute. right. right. right. left.
Defined.

(** ** The listener start of the other Flask variants *)

(** The framework of a variant is the one whose application object it
    creates. *)
Lemma framework_of_created (v : Variant) (w : World) :
  created_apps (calls v "__main__" (quiet w)) = [framework_of v].
Proof. by destruct v. Qed.



(** ** The health check across runs *)

(** C7. Take any two runs of src/main.py, in any two worlds, and any two
    requests GET /health, with any queries and payloads, served in any
    process states: both get the same response, and serving them makes no
    call and writes no log line.  The view function itself returns the same
    value for all requests, worlds and states, and leaves the state as it
    was. *)
Theorem health_check_independent (w1 w2 : World) (name1 name2 : string)
    (a1 a2 : App) (args1 args2 : RunArgs) (w1' w2' : World) (s1 s2 : State)
    (q1 q2 p1 p2 : string) :
  (a1, args1) ∈ listens (calls main_py name1 w1) →
  (a2, args2) ∈ listens (calls main_py name2 w2) →
  let r1 := handle a1 {| method := GET; path := "/health"; query := q1;
                         payload := p1 |} w1' s1 in
  let r2 := handle a2 {| method := GET; path := "/health"; query := q2;
                         payload := p2 |} w2' s2 in
  r1.1 = r2.1 ∧ r1.2 = s1 ∧ r2.2 = s2 ∧
  (∀ (req req' : Request) (w w' : World) (s s' : State),
     (main.health_check req w s).1 = (main.health_check req' w' s').1 ∧
     (main.health_check req w s).2 = s).
Proof.
  intros H1 H2.
  apply served_by_main in H1 as (_ & -> & _).
  apply served_by_main in H2 as (_ & -> & _).
  cbv zeta. repeat split.
Qed.

Lemma health_check_independent_witness :
  let r1 := handle (main_app ∅)
              {| method := GET; path := "/health"; query := "a=1";
                 payload := EmptyString |} calm initial in
  let r2 := handle (main_app ∅)
              {| method := GET; path := "/health"; query := EmptyString;
                 payload := "ping" |} port_in_use
              {| log := [(INFO, "up")]; trace := [] |} in
  r1.1 = r2.1 ∧ r1.2 = initial ∧
  r2.2 = {| log := [(INFO, "up")]; trace := [] |} ∧
  (∀ (req req' : Request) (w w' : World) (s s' : State),
     (main.health_check req w s).1 = (main.health_check req' w' s').1 ∧
     (main.health_check req w s).2 = s).
Proof.
  apply (health_check_independent calm (quiet port_in_use)
           "__main__" "__main__" (main_app ∅) (main_app ∅)
           default_args default_args).
  - vm_compute. left.
  - vm_compute. left.
Defined.

(** ** What the handler of src/main.py covers *)

(** The routine never lets an exception out: it returns or it exits with
    status 1. *)
Lemma start_management_service_contained (app : App) (config : Config)
    (logger : Logger) (w : World) (s : State) :
  (main.start_management_service app config logger w s).1 = Ret () ∨
  (main.start_management_service app config logger w s).1 = Exit 1.
Proof.
  unfold_ops. cbn.
  destruct (raises w _); cbn; [by right | by left].
Qed.

(** C8. In src/main.py, an exception raised by [Config()], by [Logger()] or
    by a blueprint registration leaves the module uncaught: the run ends
    with that exception and not with an exit through the handler, and the
    log holds no error-level line.  The handler in
    [start_management_service] contains what is raised inside its [try]:
    the routine itself only returns or exits with status 1. *)
Theorem import_time_failures_escape (name : string) (w : World) (c : Call)
    (e : Exn) :
  c ∈ calls main_py name w →
  raises w c = Some e →
  c = NewConfig ∨ c = NewLogger ∨ (∃ m : Mount, c = Attach m) →
  (script main_py name w initial).1 = Raise e ∧
  error_lines (script main_py name w initial).2 = [] ∧
  (∀ (app : App) (config : Config) (logger : Logger) (w' : World)
     (s : State),
     (main.start_management_service app config logger w' s).1 = Ret () ∨
     (main.start_management_service app config logger w' s).1 = Exit 1).
Proof.
  intros Hc He Hkind. unfold calls in Hc.
  assert (is_listen c = false) as Hl
    by (destruct Hkind as [->|[->|[m ->]]]; reflexivity).
  destruct (run_cases main_py name w)
    as [(Hall & _) | (c' & e' & Hstop & Hend)].
  - rewrite Forall_forall in Hall. apply Hall in Hc. congruence.
  - destruct (stopped_at_unique _ _ _ _ _ _ Hstop Hc He) as [<- <-].
    rewrite Hl in Hend. destruct Hend as [Hout Herr].
    split; [exact Hout|]. split; [exact Herr|].
    apply start_management_service_contained.
Qed.

Lemma import_time_failures_escape_witness :
  (script main_py "__main__" config_missing initial).1
  = Raise "config file not found" ∧
  error_lines (script main_py "__main__" config_missing initial).2 = [] ∧
  (∀ (app : App) (config : Config) (logger : Logger) (w' : World)
     (s : State),
     (main.start_management_service app config logger w' s).1 = Ret () ∨
     (main.start_management_service app config logger w' s).1 = Exit 1).
Proof.
  apply (import_time_failures_escape "__main__" config_missing NewConfig
           "config file not found").
  - vm_compute. do 12 right. left.
  - reflexivity.
  - left. reflexivity.
Defined.

(** ** Further facts read off one execution of each file *)

Ltac find_call :=
  repeat first [apply list_elem_of_here | apply list_elem_of_further].

Ltac facts_leaf H :=
  injection H as <- <-; cbn;
  split;
  [ intros Hn;
    first [ by destruct Hn
          | repeat split; first [reflexivity | left; reflexivity
                                | right; eexists; reflexivity] ]
  | split;
    [ first [ left; reflexivity
            | right; split; [find_call | first [assumption | reflexivity]] ]
    | intros Ho; first [discriminate Ho | reflexivity] ] ].

(** Three facts about every run: a module that is imported rather than run
    logs nothing, starts no listener and calls no [sys.exit]; a log line
    needs a logger that was constructed; a run that returns made all the
    calls of the file. *)
Lemma run_facts (v : Variant) (name : string) (w : World) :
  let r := script v name w initial in
  (name ≠ "__main__" →
     log r.2 = [] ∧ listens (trace r.2) = [] ∧
     (r.1 = Ret () ∨ ∃ e, r.1 = Raise e)) ∧
  (log r.2 = [] ∨ (NewLogger ∈ trace r.2 ∧ raises w NewLogger = None)) ∧
  (r.1 = Ret () → trace r.2 = calls v name (quiet w)).
Proof.
  cbv zeta. destruct (script v name w initial) as [o s] eqn:Hr.
  destruct v; unfold_ops; cbn; cbn in Hr; revert Hr; main_guard name;
    intros Hr.
  all: repeat (step_in Hr; [facts_leaf Hr|]).
  all: facts_leaf Hr.
Qed.

(** ** Importing a module *)

(** X1. A file that is imported rather than run ([__name__] is not
    "__main__") starts no listener, writes no log line and never calls
    [sys.exit], in any world: it returns, or an exception of one of its
    module-level calls escapes. *)
Theorem import_starts_nothing (v : Variant) (name : string) (w : World) :
  name ≠ "__main__" →
  listens (calls v name w) = [] ∧
  log (script v name w initial).2 = [] ∧
  ((script v name w initial).1 = Ret () ∨
   ∃ e : Exn, (script v name w initial).1 = Raise e).
Proof.
  intros Hn. destruct (run_facts v name w) as (Himp & _ & _).
  destruct (Himp Hn) as (Hlog & Hl & Hout). done.
Qed.

Lemma import_starts_nothing_witness :
  listens (calls main_py "main" port_in_use) = [] ∧
  log (script main_py "main" port_in_use initial).2 = [] ∧
  ((script main_py "main" port_in_use initial).1 = Ret () ∨
   ∃ e : Exn, (script main_py "main" port_in_use initial).1 = Raise e).
Proof.
  apply (import_starts_nothing main_py "main" port_in_use).
  discriminate.
Defined.



(** ** How runs end *)

Lemma elem_of_calls_quiet (v : Variant) (name : string) (w : World)
    (c : Call) :
  c ∈ calls v name w → c ∈ calls v name (quiet w).
Proof.
  intros Hc. destruct (calls_prefix v name w) as [k ->].
  apply elem_of_app. by left.
Qed.

Lemma logger_only_with_handler (v : Variant) (name : string) (w : World) :
  NewLogger ∈ calls v name w → has_handler v = true.
Proof.
  intros Hc. apply elem_of_calls_quiet in Hc. revert Hc.
  destruct v; try done; unfold_ops; cbn; main_guard name; intros Hc;
    repeat (apply elem_of_cons in Hc as [?|Hc]; [discriminate|]);
    by apply elem_of_nil in Hc.
Qed.

(** X3. The variants that put no handler around the listener start
    (common_types.py, api_provider.py and the three FastAPI files) let a
    failing listener start escape: the run ends with the exception itself,
    there is no exit through [sys.exit] and nothing is logged. *)
Theorem unhandled_listener_failure (v : Variant) (name : string) (w : World)
    (a : App) (args : RunArgs) (e : Exn) :
  has_handler v = false →
  (a, args) ∈ listens (calls v name w) →
  raises w (Listen a args) = Some e →
  (script v name w initial).1 = Raise e ∧
  log (script v name w initial).2 = [].
Proof.
  intros Hv Hin He. apply elem_of_listens in Hin as Hc. unfold calls in Hc.
  split.
  - destruct (run_cases v name w) as [(Hall & _) | (c & e' & Hstop & Hend)].
    + rewrite Forall_forall in Hall. apply Hall in Hc. congruence.
    + destruct (stopped_at_unique _ _ _ _ _ _ Hstop Hc He) as [<- <-].
      rewrite Hv, andb_false_r in Hend. tauto.
  - destruct (run_facts v name w) as (_ & [Hlog | [Hlg _]] & _); [done|].
    apply logger_only_with_handler in Hlg. congruence.
Qed.

Lemma unhandled_listener_failure_witness :
  (script auth_py "__main__" port_in_use initial).1
  = Raise "Address already in use" ∧
  log (script auth_py "__main__" port_in_use initial).2 = [].
Proof.
  apply (unhandled_listener_failure auth_py "__main__" port_in_use
           {| framework := FastAPI; import_name := EmptyString;
              cors := false; app_config := ∅;
              mounts :=
                [ {| group := scenario_routes; prefix := Some "/scenarios";
                     tags := ["scenarios"] |};
                  {| group := execution_routes; prefix := Some "/executions";
                     tags := ["executions"] |};
                  {| group := data_provider_routes;
                     prefix := Some "/data-providers";
                     tags := ["data providers"] |};
                  {| group := ai_service_routes;
                     prefix := Some "/ai-services";
                     tags := ["AI services"] |} ];
              routes := [] |}
           {| host := Some (VStr "0.0.0.0"); port := Some (VInt 8000);
              debug := None |}
           "Address already in use").
  - reflexivity.
  - vm_compute. left.
  - reflexivity.
Defined.







(** ** What the three files with a logger write *)







(** ** The runner, the server module, the routes *)

(** X10. Four files import [Runner]; only src/types/common_types.py ever
    constructs one, and only when run as a program. *)
Theorem runner_only_in_common_types (v : Variant) (name : string)
    (w : World) (c : Call) :
  c ∈ calls v name w →
  c = NewRunner ∨ c = RunnerInitialize →
  v = common_types_py ∧ name = "__main__".
Proof.
  intros Hc Hk. apply elem_of_calls_quiet in Hc. revert Hc.
  destruct v; unfold_ops; cbn; main_guard name; intros Hc;
    repeat (apply elem_of_cons in Hc as [-> | Hc];
            [ by destruct Hk as [? | ?] | ]);
    by apply elem_of_nil in Hc.
Qed.

Lemma runner_only_in_common_types_witness :
  common_types_py = common_types_py ∧ "__main__" = "__main__".
Proof.
  apply (runner_only_in_common_types common_types_py "__main__" calm
           NewRunner).
  - vm_compute. do 12 right. left.
  - by left.
Defined.

(** X11. In src/types/common_types.py the listener is started only after
    [Runner()] and [runner.initialize()] were called, in this order, and
    both returned: when either raises, no listener is started. *)
Theorem runner_before_listener (name : string) (w : World) (i : nat)
    (a : App) (args : RunArgs) :
  calls common_types_py name w !! i = Some (Listen a args) →
  (2 ≤ i)%nat ∧
  calls common_types_py name w !! (i - 2)%nat = Some NewRunner ∧
  calls common_types_py name w !! (i - 1)%nat = Some RunnerInitialize ∧
  raises w NewRunner = None ∧ raises w RunnerInitialize = None.
Proof.
  intros Hi.
  assert ((a, args) ∈ listens (calls common_types_py name w)) as Hin.
  { apply elem_of_listens. by eapply list_elem_of_lookup_2. }
  revert Hi Hin. unfold calls.
  destruct (script common_types_py name w initial) as [o s] eqn:Hr.
  unfold_ops; cbn in Hr. revert Hr. main_guard name; intros Hr.
  all: repeat (step_in Hr;
               [ injection Hr as <- <-; cbn; intros _ Hin;
                 by apply elem_of_nil in Hin |]).
  all: try (injection Hr as <- <-; cbn; intros _ Hin;
            by apply elem_of_nil in Hin).
  all: step_in Hr; injection Hr as <- <-; cbn; intros Hi _.
  all: do 14 (destruct i as [|i]; [discriminate Hi|]).
  all: destruct i as [|i]; [|destruct i; discriminate Hi].
  all: cbn; repeat split; (lia || done).
Qed.

Lemma runner_before_listener_witness :
  (2 ≤ 14)%nat ∧
  calls common_types_py "__main__" calm !! (14 - 2)%nat = Some NewRunner ∧
  calls common_types_py "__main__" calm !! (14 - 1)%nat
  = Some RunnerInitialize ∧
  raises calm NewRunner = None ∧ raises calm RunnerInitialize = None.
Proof.
  apply (runner_before_listener "__main__" calm 14
           (plain_app [ {| rule := "/"; endpoint := ep_index |} ])
           debug_only).
  reflexivity.
Defined.

(** X12. The FastAPI files import uvicorn inside the main block, after the
    four routers are included. When that import fails the run ends with the
    import's exception, with the four groups attached and no listener
    started. *)
Theorem uvicorn_import_failure (v : Variant) (name : string) (w : World)
    (e : Exn) :
  framework_of v = FastAPI →
  ImportModule "uvicorn" ∈ calls v name w →
  raises w (ImportModule "uvicorn") = Some e →
  name = "__main__" ∧
  (script v name w initial).1 = Raise e ∧
  group <$> attached (calls v name w) = all_groups ∧
  listens (calls v name w) = [].
Proof.
  intros Hfw Hc He. revert Hc. unfold calls.
  destruct (script v name w initial) as [o s] eqn:Hr.
  destruct v; try discriminate Hfw; unfold_ops; cbn in Hr; revert Hr;
    main_guard name; intros Hr.
  all: repeat (step_in Hr;
               [ injection Hr as <- <-; cbn; intros Hc;
                 first [ repeat split; congruence
                       | repeat (apply elem_of_cons in Hc as [? | Hc];
                                 [discriminate|]);
                         by apply elem_of_nil in Hc ] | ]).
  all: injection Hr as <- <-; cbn; intros Hc;
    first [ congruence
          | repeat (apply elem_of_cons in Hc as [? | Hc]; [discriminate|]);
            by apply elem_of_nil in Hc ].
Qed.

Lemma uvicorn_import_failure_witness :
  "__main__" = "__main__" ∧
  (script setup_py "__main__" (module_missing "uvicorn") initial).1
  = Raise "No module named uvicorn" ∧
  group <$> attached (calls setup_py "__main__" (module_missing "uvicorn"))
  = all_groups ∧
  listens (calls setup_py "__main__" (module_missing "uvicorn")) = [].
Proof.
  apply (uvicorn_import_failure setup_py "__main__"
           (module_missing "uvicorn") "No module named uvicorn").
  - reflexivity.
  - vm_compute. do 7 right. left.
  - reflexivity.
Defined.

(** X13. The only routes any file adds itself are /health, by src/main.py
    with view [health_check], and /, by src/types/common_types.py with view
    [index]; the FastAPI files, api_provider.py, services/__init__.py and
    tests/unit/__init__.py add none. *)
Theorem routes_of_the_files (v : Variant) (name : string) (w : World)
    (r : Route) :
  r ∈ added_routes (calls v name w) →
  (v = main_py ∧ r = {| rule := "/health"; endpoint := ep_health_check |}) ∨
  (v = common_types_py ∧ r = {| rule := "/"; endpoint := ep_index |}).
Proof.
  intros Hin. apply seen_in_quiet in Hin. revert Hin.
  destruct v; unfold_ops; cbn; main_guard name; intros Hin;
    try (by apply elem_of_nil in Hin);
    apply list_elem_of_singleton in Hin as ->; by (left + right).
Qed.

Lemma routes_of_the_files_witness :
  (main_py = main_py ∧
   {| rule := "/health"; endpoint := ep_health_check |}
   = {| rule := "/health"; endpoint := ep_health_check |}) ∨
  (main_py = common_types_py ∧
   {| rule := "/health"; endpoint := ep_health_check |}
   = {| rule := "/"; endpoint := ep_index |}).
Proof.
  apply (routes_of_the_files main_py "main" calm
           {| rule := "/health"; endpoint := ep_health_check |}).
  vm_compute. left.
Defined.

(** ** The application handed to the listener *)

(** X14. The application a file hands to its listener is of the file's
    framework and carries exactly the attachments and routes the file
    made, in the order it made them. CORS is enabled on it in src/main.py
    only, and its configuration is what [get_flask_config()] returned in
    src/main.py and empty everywhere else. *)
Theorem served_application (v : Variant) (name : string) (w : World)
    (a : App) (args : RunArgs) :
  (a, args) ∈ listens (calls v name w) →
  framework a = framework_of v ∧
  mounts a = attached (calls v name w) ∧
  routes a = added_routes (calls v name w) ∧
  cors a = bool_decide (v = main_py) ∧
  app_config a = (if decide (v = main_py) then flask_settings w else ∅).
Proof.
  intros Hin. apply elem_of_listens in Hin. revert Hin. unfold calls.
  destruct (script v name w initial) as [o s] eqn:Hr.
  destruct v; unfold_ops; cbn in Hr; revert Hr; main_guard name; intros Hr.
  all: repeat (step_in Hr;
               [ injection Hr as <- <-; cbn; intros Hc;
                 repeat (apply elem_of_cons in Hc as [Hc | Hc];
                         [ first [ discriminate Hc
                                 | injection Hc as -> _; cbn;
                                   by rewrite ?(right_id_L ∅ (∪)) ] | ]);
                 by apply elem_of_nil in Hc | ]).
  all: injection Hr as <- <-; cbn; intros Hc;
    repeat (apply elem_of_cons in Hc as [Hc | Hc];
            [ first [ discriminate Hc
                    | injection Hc as -> _; cbn;
                      by rewrite ?(right_id_L ∅ (∪)) ] | ]);
    by apply elem_of_nil in Hc.
Qed.

Lemma served_application_witness :
  framework (main_app ∅) = framework_of main_py ∧
  mounts (main_app ∅) = attached (calls main_py "__main__" port_in_use) ∧
  routes (main_app ∅) = added_routes (calls main_py "__main__" port_in_use) ∧
  cors (main_app ∅) = bool_decide (main_py = main_py) ∧
  app_config (main_app ∅)
  = (if decide (main_py = main_py) then flask_settings port_in_use else ∅).
Proof.
  apply (served_application main_py "__main__" port_in_use (main_app ∅)
           default_args).
  vm_compute. left.
Defined.

(** X15. In every world a file creates at most one application object,
    attaches no route group twice and starts its listener at most once. *)
Theorem at_most_once (v : Variant) (name : string) (w : World) :
  (length (created_apps (calls v name w)) ≤ 1)%nat ∧
  NoDup (group <$> attached (calls v name w)) ∧
  (length (listens (calls v name w)) ≤ 1)%nat.
Proof.
  destruct (calls_prefix v name w) as [k Hk].
  assert ((length (created_apps (calls v name (quiet w))) ≤ 1)%nat ∧
          NoDup (group <$> attached (calls v name (quiet w))) ∧
          (length (listens (calls v name (quiet w))) ≤ 1)%nat)
    as (Happs & Hgroups & Hlistens).
  { destruct v; unfold_ops; cbn; main_guard name;
      (split; [lia|]; split; [|lia]);
      apply (bool_decide_unpack _); vm_compute; exact I. }
  revert Happs Hgroups Hlistens. rewrite Hk.
  unfold created_apps, attached, listens.
  rewrite !omap_app, fmap_app, !length_app.
  intros Happs Hgroups Hlistens.
  apply NoDup_app in Hgroups as (Hgroups & _ & _).
  repeat split; (lia || done).
Qed.

(** ** The application factory *)





(** ** Duplicated files *)



(** ** Configuration reaching the listener *)

(** X19. src/main.py hands the configured server settings to [app.run] as
    they are, whatever their type: a host and port found in the
    configuration are the host and port of the listener start, and debug
    is the configured value, or [False] when the configuration has none. *)
Theorem configured_bind (name : string) (w : World) (a : App)
    (args : RunArgs) (h p : Value) :
  settings w !! "server.host" = Some h →
  settings w !! "server.port" = Some p →
  (a, args) ∈ listens (calls main_py name w) →
  host args = Some h ∧ port args = Some p ∧
  debug args = Some (default (VBool false) (settings w !! "server.debug")).
Proof.
  intros Hh Hp Hin. apply served_by_main in Hin as (_ & _ & ->). cbn.
  unfold config_get. by rewrite Hh, Hp.
Qed.

Lemma configured_bind_witness :
  host {| host := Some (VStr "127.0.0.1"); port := Some (VStr "5000");
          debug := Some (VBool false) |} = Some (VStr "127.0.0.1") ∧
  port {| host := Some (VStr "127.0.0.1"); port := Some (VStr "5000");
          debug := Some (VBool false) |} = Some (VStr "5000") ∧
  debug {| host := Some (VStr "127.0.0.1"); port := Some (VStr "5000");
           debug := Some (VBool false) |}
  = Some (default (VBool false) (settings configured !! "server.debug")).
Proof.
  apply (configured_bind "__main__" configured (main_app ∅)
           {| host := Some (VStr "127.0.0.1"); port := Some (VStr "5000");
              debug := Some (VBool false) |}
           (VStr "127.0.0.1") (VStr "5000")).
  - reflexivity.
  - reflexivity.
  - vm_compute. left.
Defined.
